(** * verify_docs.py: a shallow embedding and its properties

    The script drives a browser through a fixed sequence of Playwright
    calls.  Everything it does is an effect, so the embedding is a small
    state-and-exception monad over
    - the filesystem (paths to file contents),
    - the log of what the script did, in order (library calls and prints),
    - the time spent blocked in the DOM wait,
    and the outside world (network, page, browser) is a record that fixes
    what each library call does when the script reaches it. *)

From Stdlib Require Import NArith ZArith Ascii String List Lia.
From stdpp Require Import base option gmap strings list.

Open Scope string_scope.
Open Scope list_scope.

(** ** Python: exceptions and the control flow the script uses *)
Module Python.

(** An exception value, as far as the script can observe it: whether it is
    an instance of [Exception] (which is what [except Exception] tests;
    [KeyboardInterrupt], [asyncio.CancelledError] and the like derive from
    [BaseException] only) and the text [str(e)] that an f-string embeds. *)
Record PyExc := mkExc {
  exc_is_Exception : bool;
  exc_str : string
}.

Inductive outcome (A : Type) :=
| Returned (a : A)
| Raised (e : PyExc).
Arguments Returned {A} a.
Arguments Raised {A} e.

Section Monad.
Context {St : Type}.

Definition M (A : Type) : Type := St -> St * outcome A.

Definition ret {A} (a : A) : M A := fun s => (s, Returned a).

Definition raise {A} (e : PyExc) : M A := fun s => (s, Raised e).

Definition bind {A B} (m : M A) (k : A -> M B) : M B := fun s =>
  match m s with
  | (s1, Returned a) => k a s1
  | (s1, Raised e) => (s1, Raised e)
  end.

(** [try: body / except Exception as e: handler e / finally: fin].
    The handler runs only for instances of [Exception]; [fin] runs on
    every path, and an exception it raises replaces whatever was
    pending. *)
Definition try_except_finally {A}
    (body : M A) (handler : PyExc -> M A) (fin : M unit) : M A := fun s =>
  let '(s1, r1) := body s in
  let '(s2, r2) :=
    match r1 with
    | Returned a => (s1, Returned a)
    | Raised e => if exc_is_Exception e then handler e s1
                  else (s1, Raised e)
    end in
  match fin s2 with
  | (s3, Returned _) => (s3, r2)
  | (s3, Raised e') => (s3, Raised e')
  end.

(** [async with cm as x: body x], for a context manager whose
    [__aexit__] returns [None], so that it never swallows the pending
    exception.  [__aexit__] is not called when [__aenter__] raised. *)
Definition async_with {A B}
    (aenter : M A) (aexit : M unit) (body : A -> M B) : M B := fun s =>
  match aenter s with
  | (s1, Raised e) => (s1, Raised e)
  | (s1, Returned x) =>
      let '(s2, r2) := body x s1 in
      match aexit s2 with
      | (s3, Returned _) => (s3, r2)
      | (s3, Raised e') => (s3, Raised e')
      end
  end.
End Monad.

Arguments M : clear implicits.

(** The status as the outcome [r] of [asyncio.run] alone gives it: 0 when
    it returned, and 1, the status of a traceback, when an exception left
    it.  What the interpreter adds to this (the class of an exception
    that is not an instance of [Exception], the flush of standard output
    at exit) is in [process_exit]. *)
Definition exit_status {A} (r : outcome A) : Z :=
  match r with
  | Returned _ => 0%Z
  | Raised _ => 1%Z
  end.

End Python.

Export Python.

Declare Scope py_scope.
Delimit Scope py_scope with py.
Notation "x <- m ;; k" := (bind m (fun x => k))
  (at level 100, m at next level, right associativity) : py_scope.
Notation "m ;; k" := (bind m (fun _ => k))
  (at level 100, right associativity) : py_scope.

(** ** Playwright: the calls the script makes and what they do *)
Module Playwright.

Definition Image : Type := list Byte.byte.

(** A library call with the arguments as the caller passed them; an
    optional argument that was left out is [None]. *)
Inductive ApiCall :=
| Start                                     (* async_playwright().__aenter__ *)
| Launch                                    (* p.chromium.launch() *)
| NewPage                                   (* browser.new_page() *)
| Goto (url : string) (timeout : option N)  (* page.goto(url, timeout=) *)
| WaitForSelector (selector : string) (timeout : option N)
| Screenshot (path : option string) (full_page : option bool)
             (timeout : option N)
| Close                                     (* browser.close() *)
| Stop.                                     (* async_playwright().__aexit__ *)

Inductive Event :=
| Call (c : ApiCall)
| Printed (line : string).

Record State := mkState {
  st_fs : gmap string Image;   (* the files, by path *)
  st_log : list Event;         (* oldest first *)
  st_waited : N                (* milliseconds spent in wait_for_selector *)
}.

(** What is outside the script.  [None] in a fault field means that the
    call returns normally. *)
Record World := mkWorld {
  w_start : option PyExc;
  w_launch : option PyExc;
  w_new_page : option PyExc;
  w_goto : string -> option PyExc;          (* by URL *)
  w_wait_fault : option PyExc;              (* e.g. the page crashed *)
  w_visible_after : string -> option N;     (* by selector: milliseconds
                                               until a matching element is
                                               visible; None: never *)
  w_timeout_detail : string;                (* str() of a TimeoutError *)
  w_screenshot : option PyExc;
  w_partial_save : option Image;            (* when page.screenshot raises:
                                               what it had written to the
                                               file by then; None: it had
                                               not opened the file *)
  w_capture : bool -> Image;                (* the PNG, by full_page *)
  w_close : option PyExc;
  w_stop : option PyExc;
  w_stdout_broken : bool                    (* what is printed cannot be
                                               written out (a full device,
                                               a closed pipe) *)
}.

Inductive PlaywrightHandle := ThePlaywright.
Inductive Browser := TheBrowser.
Inductive Page := ThePage.

(** [playwright.async_api.TimeoutError] derives from [Exception]. *)
Definition TimeoutError (detail : string) : PyExc :=
  {| exc_is_Exception := true; exc_str := detail |}.

(** Playwright's default for [full_page] is false: the capture is of the
    visible viewport unless the caller asks for the whole page. *)
Definition full_page_default : bool := false.

Definition log (e : Event) : M State unit := fun s =>
  (mkState (st_fs s) (st_log s ++ [e]) (st_waited s), Returned tt).

Definition tick (ms : N) : M State unit := fun s =>
  (mkState (st_fs s) (st_log s) (st_waited s + ms), Returned tt).

Definition write_file (path : string) (img : Image) : M State unit := fun s =>
  (mkState (<[path := img]> (st_fs s)) (st_log s) (st_waited s), Returned tt).

Definition fault {A} (f : option PyExc) (a : A) : M State A :=
  match f with
  | Some e => raise e
  | None => ret a
  end.

(** [print(line)]: standard output is the [Printed] events of the log.
    Standard output is buffered, so that [print] returns whatever becomes
    of the text later: it reaches the file descriptor when the interpreter
    flushes at exit, see [process_exit]. *)
Definition print (line : string) : M State unit := log (Printed line).

Section Api.
Variable w : World.

Definition async_playwright_enter : M State PlaywrightHandle :=
  (log (Call Start) ;; fault (w_start w) ThePlaywright)%py.

Definition async_playwright_exit : M State unit :=
  (log (Call Stop) ;; fault (w_stop w) tt)%py.

Definition chromium_launch (p : PlaywrightHandle) : M State Browser :=
  (log (Call Launch) ;; fault (w_launch w) TheBrowser)%py.

Definition new_page (b : Browser) : M State Page :=
  (log (Call NewPage) ;; fault (w_new_page w) ThePage)%py.

Definition goto (pg : Page) (url : string) (timeout : option N)
    : M State unit :=
  (log (Call (Goto url timeout)) ;; fault (w_goto w url) tt)%py.

(** Returns as soon as an element matching [selector] is visible, and
    raises [TimeoutError] when [timeout] milliseconds have passed
    without one.  Only the case of an explicit, positive timeout is
    modelled: it is the one the script uses. *)
Definition wait_for_selector (pg : Page) (selector : string) (timeout : N)
    : M State unit :=
  (log (Call (WaitForSelector selector (Some timeout))) ;;
   fault (w_wait_fault w) tt ;;
   match w_visible_after w selector with
   | Some d =>
       if (d <? timeout)%N then tick d
       else (tick timeout ;; raise (TimeoutError (w_timeout_detail w)))
   | None => tick timeout ;; raise (TimeoutError (w_timeout_detail w))
   end)%py.

(** Captures the page and, when [path] is given, saves the image there:
    the file is opened for writing, which empties it, and the image is
    written to it.  The call can raise before the file is opened (the
    capture itself fails, the path cannot be opened), and then no file is
    touched; or while it writes, and then the file is left with what had
    been written by then, which replaces what was there. *)
Definition screenshot (pg : Page) (path : option string)
    (full_page : option bool) : M State Image :=
  (log (Call (Screenshot path full_page None)) ;;
   match w_screenshot w with
   | Some e =>
       match path, w_partial_save w with
       | Some f, Some written => write_file f written
       | _, _ => ret tt
       end ;;
       raise e
   | None =>
       let img := w_capture w (default full_page_default full_page) in
       match path with
       | Some f => write_file f img
       | None => ret tt
       end ;;
       ret img
   end)%py.

Definition close (b : Browser) : M State unit :=
  (log (Call Close) ;; fault (w_close w) tt)%py.
End Api.

End Playwright.

Export Playwright.

(** ** The script *)
Module VerifyDocs.

Definition docs_url : string := "https://florisboard.github.io/florisboard/".
Definition heading_selector : string := "h1".
Definition wait_timeout_ms : N := 10000.
Definition screenshot_path : string := "docs_screenshot.png".
Definition success_message : string :=
  "Documentation page loaded successfully and screenshot taken.".
Definition error_message (e : PyExc) : string :=
  "Error verifying documentation page: " +:+ exc_str e.

Section Script.
Variable w : World.

Definition verify_docs : M State unit :=
  async_with (async_playwright_enter w) (async_playwright_exit w) (fun p =>
    (browser <- chromium_launch w p ;;
     page <- new_page w browser ;;
     try_except_finally
       (goto w page docs_url None ;;
        wait_for_selector w page heading_selector wait_timeout_ms ;;
        _ <- screenshot w page (Some screenshot_path) None ;;
        print success_message)
       (fun e => print (error_message e))
       (close w browser))%py).
End Script.

(** A fresh process: nothing logged yet, on whatever files are there. *)
Definition initial (fs : gmap string Image) : State :=
  {| st_fs := fs; st_log := []; st_waited := 0 |}.

(** [if __name__ == "__main__": asyncio.run(verify_docs())]: the state
    the run leaves behind and the status the process exits with. *)
Definition main (w : World) (fs : gmap string Image) : State * Z :=
  let '(s, r) := verify_docs w (initial fs) in (s, exit_status r).

(** Successive runs of the program, each in a world of its own, on the
    files the previous run left. *)
Fixpoint runs (ws : list World) (fs : gmap string Image)
    : gmap string Image :=
  match ws with
  | [] => fs
  | w :: ws' => runs ws' (st_fs (fst (main w fs)))
  end.

End VerifyDocs.

Export VerifyDocs.

(** ** What a run can be observed to have done *)
Module Observe.

(** Standard output: the printed lines, in order. *)
Definition stdout (s : State) : list string :=
  omap (fun e => match e with Printed l => Some l | Call _ => None end)
       (st_log s).




(** The library calls, in order. *)
Definition calls (s : State) : list ApiCall :=
  omap (fun e => match e with Call c => Some c | Printed _ => None end)
       (st_log s).

Definition is_close (c : ApiCall) : bool :=
  match c with Close => true | _ => false end.

(** How many times the browser session was released. *)
Definition releases (s : State) : nat :=
  length (List.filter is_close (calls s)).

(** What an event adds to that count. *)
Definition release_of (ev : Event) : nat :=
  match ev with
  | Call Close => 1
  | _ => 0
  end.

(** [adds_releases n m]: running [m] makes exactly [n] more calls of
    [browser.close()], however it ends. *)
Definition adds_releases {A} (n : nat) (m : M State A) : Prop :=
  forall s, releases (fst (m s)) = releases s + n.

(** The calls on the page: navigation, DOM wait, capture. *)
Definition is_page_call (c : ApiCall) : bool :=
  match c with
  | Goto _ _ | WaitForSelector _ _ | Screenshot _ _ _ => true
  | _ => false
  end.

Definition page_calls (s : State) : list ApiCall :=
  List.filter is_page_call (calls s).

Definition is_wait (c : ApiCall) : bool :=
  match c with WaitForSelector _ _ => true | _ => false end.

Definition is_screenshot (c : ApiCall) : bool :=
  match c with Screenshot _ _ _ => true | _ => false end.

(** Whether the run got as far as calling [page.wait_for_selector],
    respectively [page.screenshot]. *)
Definition reached_wait (s : State) : bool := existsb is_wait (calls s).
Definition reached_screenshot (s : State) : bool :=
  existsb is_screenshot (calls s).

(** The timeout a call was given, if it has such a parameter and the
    caller passed one. *)
Definition timeout_of (c : ApiCall) : option N :=
  match c with
  | Goto _ t | WaitForSelector _ t | Screenshot _ _ t => t
  | _ => None
  end.

End Observe.

Export Observe.

(** ** Runs, classified by what the world does to them *)
Module Runs.

(** Steps 1 and 2 went through: Playwright started, the browser was
    launched and the page was opened, so the [try] block is entered. *)
Definition page_opened (w : World) : Prop :=
  w_start w = None /\ w_launch w = None /\ w_new_page w = None.

Definition navigates (w : World) : Prop :=
  w_goto w docs_url = None.

(** An element matching the heading selector is visible before [t]
    milliseconds of waiting, and nothing else interrupts the wait. *)
Definition heading_within (w : World) (t : N) : Prop :=
  w_wait_fault w = None /\
  exists d, w_visible_after w heading_selector = Some d /\ (d < t)%N.

(** No such element is visible before [t] milliseconds of waiting. *)
Definition heading_absent (w : World) (t : N) : Prop :=
  forall d, w_visible_after w heading_selector = Some d -> (t <= d)%N.

Inductive Step := Acquire | OpenPage | Navigate | WaitHeading | Capture.

(** [fails_at w step e]: in world [w] the first exception of the run is
    [e], raised by [step]. *)
Inductive fails_at (w : World) : Step -> PyExc -> Prop :=
| start_fails e :
    w_start w = Some e -> fails_at w Acquire e
| launch_fails e :
    w_start w = None -> w_launch w = Some e -> fails_at w Acquire e
| open_fails e :
    w_start w = None -> w_launch w = None -> w_new_page w = Some e ->
    fails_at w OpenPage e
| goto_fails e :
    page_opened w -> w_goto w docs_url = Some e -> fails_at w Navigate e
| wait_faults e :
    page_opened w -> navigates w -> w_wait_fault w = Some e ->
    fails_at w WaitHeading e
| wait_times_out :
    page_opened w -> navigates w -> w_wait_fault w = None ->
    heading_absent w wait_timeout_ms ->
    fails_at w WaitHeading (TimeoutError (w_timeout_detail w))
| screenshot_fails e :
    page_opened w -> navigates w -> heading_within w wait_timeout_ms ->
    w_screenshot w = Some e -> fails_at w Capture e.

(** A failure at [step] comes before [page.screenshot] has opened the
    file: it is at an earlier step, or the capture raises without having
    written anything. *)
Definition before_saving (w : World) (step : Step) : Prop :=
  step = Capture -> w_partial_save w = None.

(** What [except Exception] does with the fault of a call: there is
    nothing to catch, or it is an instance of [Exception]. *)
Definition catchable (f : option PyExc) : bool :=
  match f with
  | Some e => exc_is_Exception e
  | None => true
  end.

(** Nothing that the calls of the [try] block raise in this world is
    outside the [Exception] hierarchy (a timeout never is). *)
Definition only_Exceptions (w : World) : Prop :=
  catchable (w_goto w docs_url) = true /\
  catchable (w_wait_fault w) = true /\
  catchable (w_screenshot w) = true.

(** Every step up to and including the capture returns normally. *)
Definition succeeds (w : World) : Prop :=
  page_opened w /\ navigates w /\ heading_within w wait_timeout_ms /\
  w_screenshot w = None.

End Runs.

Export Runs.

(** ** The interpreter around the script *)
Module Interpreter.

(** Whether the flush of standard output at exit fails: something was
    printed, and it cannot be written out. *)
Definition output_lost (w : World) (s : State) : bool :=
  match stdout s with
  | [] => false
  | _ :: _ => w_stdout_broken w
  end.

(** The status the process ends with, where the outcome of the coroutine
    and the flush of standard output decide it: 0 after a return and 1
    after the traceback of an [Exception], and 120 in place of either
    when the flush at exit fails.  When what leaves [asyncio.run] is not
    an instance of [Exception] the status depends on its class (130
    after an interrupt, the code of a [SystemExit]), which [PyExc] does
    not record: [None]. *)
Definition process_exit (w : World) (fs : gmap string Image) : option Z :=
  let '(s, r) := verify_docs w (initial fs) in
  match r with
  | Returned _ => Some (if output_lost w s then 120%Z else 0%Z)
  | Raised e =>
      if exc_is_Exception e
      then Some (if output_lost w s then 120%Z else 1%Z)
      else None
  end.

End Interpreter.

Export Interpreter.

(** ** Concrete worlds *)
Module Worlds.

Definition viewport_png : Image := [Byte.x89; Byte.x50; Byte.x01].
Definition full_page_png : Image := [Byte.x89; Byte.x50; Byte.x02].

(** The page loads and shows its heading after a quarter of a second. *)
Definition world_ok : World :=
  {| w_start := None; w_launch := None; w_new_page := None;
     w_goto := fun _ => None;
     w_wait_fault := None;
     w_visible_after := fun _ => Some 250%N;
     w_timeout_detail := "Timeout 10000ms exceeded.";
     w_screenshot := None;
     w_partial_save := None;
     w_capture := fun full => if full then full_page_png else viewport_png;
     w_close := None; w_stop := None;
     w_stdout_broken := false |}.

Definition with_start (f : option PyExc) (w : World) : World :=
  mkWorld f (w_launch w) (w_new_page w) (w_goto w) (w_wait_fault w)
          (w_visible_after w) (w_timeout_detail w) (w_screenshot w)
          (w_partial_save w) (w_capture w) (w_close w) (w_stop w)
          (w_stdout_broken w).
Definition with_launch (f : option PyExc) (w : World) : World :=
  mkWorld (w_start w) f (w_new_page w) (w_goto w) (w_wait_fault w)
          (w_visible_after w) (w_timeout_detail w) (w_screenshot w)
          (w_partial_save w) (w_capture w) (w_close w) (w_stop w)
          (w_stdout_broken w).
Definition with_new_page (f : option PyExc) (w : World) : World :=
  mkWorld (w_start w) (w_launch w) f (w_goto w) (w_wait_fault w)
          (w_visible_after w) (w_timeout_detail w) (w_screenshot w)
          (w_partial_save w) (w_capture w) (w_close w) (w_stop w)
          (w_stdout_broken w).
Definition with_goto (f : option PyExc) (w : World) : World :=
  mkWorld (w_start w) (w_launch w) (w_new_page w) (fun _ => f)
          (w_wait_fault w) (w_visible_after w) (w_timeout_detail w)
          (w_screenshot w) (w_partial_save w) (w_capture w) (w_close w)
          (w_stop w) (w_stdout_broken w).
Definition with_visible_after (f : option N) (w : World) : World :=
  mkWorld (w_start w) (w_launch w) (w_new_page w) (w_goto w)
          (w_wait_fault w) (fun _ => f) (w_timeout_detail w)
          (w_screenshot w) (w_partial_save w) (w_capture w) (w_close w)
          (w_stop w) (w_stdout_broken w).
Definition with_close (f : option PyExc) (w : World) : World :=
  mkWorld (w_start w) (w_launch w) (w_new_page w) (w_goto w)
          (w_wait_fault w) (w_visible_after w) (w_timeout_detail w)
          (w_screenshot w) (w_partial_save w) (w_capture w) f (w_stop w)
          (w_stdout_broken w).
Definition with_stdout_broken (f : bool) (w : World) : World :=
  mkWorld (w_start w) (w_launch w) (w_new_page w) (w_goto w)
          (w_wait_fault w) (w_visible_after w) (w_timeout_detail w)
          (w_screenshot w) (w_partial_save w) (w_capture w) (w_close w)
          (w_stop w) f.

Definition no_browser : PyExc :=
  mkExc true "BrowserType.launch: Executable doesn't exist".
Definition no_page : PyExc :=
  mkExc true "Browser.new_page: Target page, context or browser has been closed".
Definition unreachable : PyExc :=
  mkExc true "Page.goto: net::ERR_NAME_NOT_RESOLVED".
Definition disconnected : PyExc :=
  mkExc true "Browser.close: Connection closed".
(** What Ctrl-C during an await turns into under [asyncio.run]: not an
    instance of [Exception]. *)
Definition cancelled : PyExc := mkExc false EmptyString.

Definition world_launch_fails : World := with_launch (Some no_browser) world_ok.
Definition world_new_page_fails : World := with_new_page (Some no_page) world_ok.
Definition world_unreachable : World := with_goto (Some unreachable) world_ok.
Definition world_cancelled : World := with_goto (Some cancelled) world_ok.
Definition world_no_heading : World := with_visible_after None world_ok.
Definition world_slow_heading : World :=
  with_visible_after (Some 12000%N) world_ok.
Definition world_close_fails : World := with_close (Some disconnected) world_ok.
(** Everything goes through, but standard output cannot be written. *)
Definition world_stdout_broken : World := with_stdout_broken true world_ok.

End Worlds.

Export Worlds.

(** ** Running the script symbolically *)

(** Unfolds the script and the library model, leaving the filesystem
    update, the messages and the observations folded. *)
Ltac unfold_run :=
  cbv beta iota zeta delta
    [main initial verify_docs async_with try_except_finally
     async_playwright_enter async_playwright_exit chromium_launch new_page
     goto wait_for_selector screenshot close print log tick write_file fault
     bind ret raise exit_status TimeoutError
     w_start w_launch w_new_page w_goto w_wait_fault w_visible_after
     w_timeout_detail w_screenshot w_partial_save w_capture w_close w_stop
     w_stdout_broken exc_is_Exception exc_str
     st_fs st_log st_waited fst snd app default full_page_default
     docs_url heading_selector wait_timeout_ms screenshot_path].

Ltac unfold_world :=
  cbv beta iota zeta delta
    [w_start w_launch w_new_page w_goto w_wait_fault w_visible_after
     w_timeout_detail w_screenshot w_partial_save w_capture w_close w_stop
     w_stdout_broken exc_is_Exception exc_str full_page_default
     docs_url heading_selector wait_timeout_ms screenshot_path
     page_opened navigates heading_within heading_absent succeeds
     only_Exceptions catchable before_saving] in *.

(** One step of the run: the next thing the script's outcome depends on is
    either known from a hypothesis or split into its cases. *)
Ltac run_step :=
  match goal with
  | H : ?x = _ |- context [match ?x with _ => _ end] => rewrite H
  | |- context [match ?x with _ => _ end] =>
      lazymatch x with
      | context [match _ with _ => _ end] => fail
      | _ => destruct x eqn:?
      end
  end; unfold_run.

Ltac run w := destruct w; unfold_world; unfold_run; repeat run_step.

(** Closes the cases in which the case split contradicts what is known of
    the world. *)
Ltac absurd_case :=
  solve [ congruence
        | repeat match goal with
          | H : (_ <? _)%N = true |- _ => apply N.ltb_lt in H
          | H : (_ <? _)%N = false |- _ => apply N.ltb_ge in H
          | H : forall d, Some _ = Some d -> _ |- _ =>
              specialize (H _ eq_refl)
          | H : forall d, ?x = Some d -> _, E : ?x = Some _ |- _ =>
              specialize (H _ E)
          | H : ?x = Some _, E : ?x = Some _ |- _ =>
              rewrite H in E; injection E as E; subst
          end; lia ].


(** ** The script on particular worlds *)

Example ok_run_log :
  st_log (fst (main world_ok ∅))
    = [Call Start; Call Launch; Call NewPage;
       Call (Goto "https://florisboard.github.io/florisboard/" None);
       Call (WaitForSelector "h1" (Some 10000%N));
       Call (Screenshot (Some "docs_screenshot.png") None None);
       Printed "Documentation page loaded successfully and screenshot taken.";
       Call Close; Call Stop].
Proof. reflexivity. Qed.

Example ok_run_files :
  map_to_list (st_fs (fst (main world_ok ∅)))
    = [("docs_screenshot.png", viewport_png)].
Proof. vm_compute; reflexivity. Qed.

Example ok_run_status : snd (main world_ok ∅) = 0%Z.
Proof. reflexivity. Qed.

Example slow_heading_run :
  st_log (fst (main world_slow_heading ∅))
    = [Call Start; Call Launch; Call NewPage;
       Call (Goto "https://florisboard.github.io/florisboard/" None);
       Call (WaitForSelector "h1" (Some 10000%N));
       Printed "Error verifying documentation page: Timeout 10000ms exceeded.";
       Call Close; Call Stop]
  /\ st_waited (fst (main world_slow_heading ∅)) = 10000%N
  /\ snd (main world_slow_heading ∅) = 0%Z.
Proof. repeat split. Qed.

Example unreachable_run :
  stdout (fst (main world_unreachable ∅))
    = ["Error verifying documentation page: Page.goto: net::ERR_NAME_NOT_RESOLVED"]
  /\ calls (fst (main world_unreachable ∅))
    = [Start; Launch; NewPage;
       Goto "https://florisboard.github.io/florisboard/" None; Close; Stop].
Proof. repeat split. Qed.

Example cancelled_run :
  st_log (fst (main world_cancelled ∅))
    = [Call Start; Call Launch; Call NewPage;
       Call (Goto "https://florisboard.github.io/florisboard/" None);
       Call Close; Call Stop]
  /\ snd (main world_cancelled ∅) = 1%Z.
Proof. repeat split. Qed.

Example launch_fails_run :
  st_log (fst (main world_launch_fails ∅)) = [Call Start; Call Launch; Call Stop]
  /\ snd (main world_launch_fails ∅) = 1%Z.
Proof. repeat split. Qed.
Section Helpers.
Implicit Types (w : World) (fs : gmap string Image) (e : PyExc).






Lemma succeeds_not_fails w step e : succeeds w -> fails_at w step e -> False.
Proof.
  intros (Ho & Hg & (Hf & d & Hd & Hlt) & Hc) Hfail.
  destruct Ho as (Hs & Hl & Hp); unfold navigates in Hg.
  inversion Hfail; subst; try congruence.
  match goal with H : heading_absent _ _ |- _ => specialize (H _ Hd) end.
  lia.
Qed.

(** The whole of a run that goes through, but for what closing the
    browser and stopping Playwright return. *)
Lemma run_succeeds w fs :
  succeeds w ->
  exists d,
    w_visible_after w heading_selector = Some d /\ (d < wait_timeout_ms)%N /\
    fst (main w fs) =
      {| st_fs := <[screenshot_path := w_capture w full_page_default]> fs;
         st_log :=
           [Call Start; Call Launch; Call NewPage;
            Call (Goto docs_url None);
            Call (WaitForSelector heading_selector (Some wait_timeout_ms));
            Call (Screenshot (Some screenshot_path) None None);
            Printed success_message; Call Close; Call Stop];
         st_waited := d |}.
Proof.
  intros (Ho & Hg & (Hf & d & Hd & Hlt) & Hc).
  destruct Ho as (Hs & Hl & Hp).
  exists d; split; [assumption|]; split; [assumption|].
  apply N.ltb_lt in Hlt.
  run w; reflexivity.
Qed.

(** A failure inside the [try] block that [except Exception] catches:
    one line, the error message; the browser closed once; and no file
    touched unless the capture had begun to save. *)
Lemma run_caught w fs step e :
  page_opened w -> fails_at w step e -> exc_is_Exception e = true ->
  stdout (fst (main w fs)) = [error_message e] /\
  (before_saving w step -> st_fs (fst (main w fs)) = fs) /\
  releases (fst (main w fs)) = 1 /\
  (w_close w = None -> w_stop w = None -> snd (main w fs) = 0%Z).
Proof.
  intros (Hs & Hl & Hp) Hfail Hexc.
  destruct e as [b detail]; cbn in Hexc; subst b.
  inversion Hfail; subst; try congruence;
    repeat match goal with
    | H : page_opened _ |- _ => clear H
    | H : heading_within _ _ |- _ => destruct H as (? & ? & ? & Hlt)
    end;
    try apply N.ltb_lt in Hlt.
  all: run w; try absurd_case.
  all: repeat split; try reflexivity; intros; try congruence.
  all: match goal with
       | H : ?a = ?a -> _ |- _ => specialize (H eq_refl); congruence
       end.
Qed.


(** Whatever stops a run before the capture has opened the file, and
    whether it is caught or not, the files are as they were. *)
Lemma run_fails_fs w fs step e :
  fails_at w step e -> before_saving w step ->
  st_fs (fst (main w fs)) = fs.
Proof.
  intros Hfail Hb.
  inversion Hfail; subst;
    repeat match goal with
    | H : page_opened _ |- _ => destruct H as (? & ? & ?)
    | H : heading_within _ _ |- _ => destruct H as (? & ? & ? & Hlt)
    end;
    try apply N.ltb_lt in Hlt;
    try (unfold before_saving in Hb; specialize (Hb eq_refl)).
  all: run w; try absurd_case; reflexivity.
Qed.



Lemma only_Exceptions_fails w step e :
  page_opened w -> only_Exceptions w -> fails_at w step e ->
  exc_is_Exception e = true.
Proof.
  intros (Hs & Hl & Hp) (Hg & Hf & Hc) Hfail.
  inversion Hfail; subst; try congruence; try reflexivity;
    match goal with
    | H : _ = Some e |- _ => rewrite H in *; assumption
    end.
Qed.
End Helpers.

(** ** Releasing the browser: a compositional count *)
Create HintDb releases.

Section Releases.
Implicit Types (w : World) (s : State).

Lemma adds_log ev : adds_releases (release_of ev) (log ev).
Proof.
  intros s; unfold releases, calls, log; cbn [fst st_log].
  rewrite omap_app, List.filter_app, length_app.
  f_equal. destruct ev as [[]|]; reflexivity.
Qed.

Lemma adds_ret {A} (a : A) : adds_releases 0 (ret a).
Proof. intros s; cbn; lia. Qed.

Lemma adds_raise {A} e : adds_releases 0 (@raise State A e).
Proof. intros s; cbn; lia. Qed.

Lemma adds_fault {A} f (a : A) : adds_releases 0 (fault f a).
Proof. destruct f; [apply adds_raise | apply adds_ret]. Qed.

Lemma adds_tick ms : adds_releases 0 (tick ms).
Proof. intros s; unfold releases, calls; cbn; lia. Qed.

Lemma adds_write_file path img : adds_releases 0 (write_file path img).
Proof. intros s; unfold releases, calls; cbn [write_file fst st_log]; lia. Qed.

(** A sequence in which nothing releases, releases nothing, wherever an
    exception may cut it short. *)
Lemma adds_bind {A B} (m : M State A) (k : A -> M State B) :
  adds_releases 0 m -> (forall a, adds_releases 0 (k a)) ->
  adds_releases 0 (bind m k).
Proof.
  intros Hm Hk s; unfold bind.
  specialize (Hm s); destruct (m s) as [s1 [a|e]]; cbn [fst] in *.
  - rewrite (Hk a s1); lia.
  - assumption.
Qed.

(** What [finally] is for: the count of the [finally] clause is the
    count of the whole statement, on every path through it. *)
Lemma adds_try_except_finally {A} n
    (body : M State A) (handler : PyExc -> M State A) (fin : M State unit) :
  adds_releases 0 body -> (forall e, adds_releases 0 (handler e)) ->
  adds_releases n fin ->
  adds_releases n (try_except_finally body handler fin).
Proof.
  intros Hb Hh Hf s; unfold try_except_finally.
  specialize (Hb s); destruct (body s) as [s1 [a|e]]; cbn [fst] in Hb.
  - specialize (Hf s1); destruct (fin s1) as [s3 [[]|e']]; cbn [fst] in *; lia.
  - destruct (exc_is_Exception e).
    + specialize (Hh e s1); destruct (handler e s1) as [s2 r2]; cbn [fst] in Hh.
      specialize (Hf s2); destruct (fin s2) as [s3 [[]|e']]; cbn [fst] in *; lia.
    + specialize (Hf s1); destruct (fin s1) as [s3 [[]|e']]; cbn [fst] in *; lia.
Qed.

#[local] Hint Resolve adds_ret adds_raise adds_fault adds_tick
  adds_write_file : releases.

Lemma adds_quiet_log ev :
  release_of ev = 0 -> adds_releases 0 (log ev).
Proof. intros H; rewrite <- H; apply adds_log. Qed.

Ltac quiet :=
  repeat first
    [ solve [auto with releases]
    | apply adds_quiet_log; reflexivity
    | apply adds_bind; [|intros ?] ].

Lemma adds_goto w pg url t : adds_releases 0 (goto w pg url t).
Proof. unfold goto; quiet. Qed.

Lemma adds_wait_for_selector w pg sel t :
  adds_releases 0 (wait_for_selector w pg sel t).
Proof.
  unfold wait_for_selector; quiet.
  destruct (w_visible_after w sel) as [d|]; [destruct (d <? t)%N|]; quiet.
Qed.

Lemma adds_screenshot w pg path full :
  adds_releases 0 (screenshot w pg path full).
Proof.
  unfold screenshot; quiet.
  destruct (w_screenshot w), path, (w_partial_save w); quiet.
Qed.

Lemma adds_print line : adds_releases 0 (print line).
Proof. unfold print; quiet. Qed.

#[local] Hint Resolve adds_goto adds_wait_for_selector adds_screenshot
  adds_print : releases.

Lemma adds_close w b : adds_releases 1 (close w b).
Proof.
  intros s; unfold close, bind.
  pose proof (adds_log (Call Close) s) as H.
  destruct (log (Call Close) s) as [s1 [[]|e]]; cbn [fst] in *.
  - rewrite (adds_fault (w_close w) tt s1); cbn in H; lia.
  - cbn in H; lia.
Qed.

(** The [try] statement of the script releases the browser exactly once,
    whatever the world does inside it. *)
Lemma adds_try_block w b pg :
  adds_releases 1
    (try_except_finally
       (goto w pg docs_url None ;;
        wait_for_selector w pg heading_selector wait_timeout_ms ;;
        _ <- screenshot w pg (Some screenshot_path) None ;;
        print success_message)%py
       (fun e => print (error_message e))
       (close w b)).
Proof.
  apply adds_try_except_finally.
  - quiet.
  - intros e; apply adds_print.
  - apply adds_close.
Qed.

(** A library call that is not [browser.close()]: how it ends is the
    world's choice, and it releases nothing. *)
Lemma call_outcome {A} c f (a : A) s :
  snd ((log (Call c) ;; fault f a)%py s)
    = match f with Some e => Raised e | None => Returned a end.
Proof. unfold bind, log; destruct f; reflexivity. Qed.

Lemma adds_call {A} c f (a : A) :
  release_of (Call c) = 0 ->
  adds_releases 0 (log (Call c) ;; fault f a)%py.
Proof.
  intros H; apply adds_bind; [apply adds_quiet_log; exact H|].
  intros _; apply adds_fault.
Qed.

(** The whole script: once if the [try] statement is reached, and not at
    all otherwise. *)
Lemma verify_docs_releases w s :
  releases (fst (verify_docs w s))
    = releases s
      + match w_start w, w_launch w, w_new_page w with
        | None, None, None => 1
        | _, _, _ => 0
        end.
Proof.
  unfold verify_docs, async_with, async_playwright_enter,
    async_playwright_exit, chromium_launch, new_page.
  assert (Hstop : forall s',
    releases (fst ((log (Call Stop) ;; fault (w_stop w) tt)%py s'))
      = releases s').
  { intros s'; rewrite (adds_call Stop (w_stop w) tt eq_refl s'); lia. }
  pose proof (call_outcome Start (w_start w) ThePlaywright s) as O1.
  pose proof (adds_call Start (w_start w) ThePlaywright eq_refl s) as R1.
  destruct ((log (Call Start) ;; fault (w_start w) ThePlaywright)%py s)
    as [s1 r1]; cbn [fst snd] in *; subst r1.
  destruct (w_start w) as [e|]; [cbn [fst]; lia|].
  unfold bind at 1.
  pose proof (call_outcome Launch (w_launch w) TheBrowser s1) as O2.
  pose proof (adds_call Launch (w_launch w) TheBrowser eq_refl s1) as R2.
  destruct ((log (Call Launch) ;; fault (w_launch w) TheBrowser)%py s1)
    as [s2 r2]; cbn [fst snd] in *; subst r2.
  destruct (w_launch w) as [e|].
  { specialize (Hstop s2).
    destruct ((log (Call Stop) ;; fault (w_stop w) tt)%py s2) as [s' [[]|e']];
      cbn [fst] in *; lia. }
  unfold bind at 1.
  pose proof (call_outcome NewPage (w_new_page w) ThePage s2) as O3.
  pose proof (adds_call NewPage (w_new_page w) ThePage eq_refl s2) as R3.
  destruct ((log (Call NewPage) ;; fault (w_new_page w) ThePage)%py s2)
    as [s3 r3]; cbn [fst snd] in *; subst r3.
  destruct (w_new_page w) as [e|].
  { specialize (Hstop s3).
    destruct ((log (Call Stop) ;; fault (w_stop w) tt)%py s3) as [s' [[]|e']];
      cbn [fst] in *; lia. }
  pose proof (adds_try_block w TheBrowser ThePage s3) as R4.
  match goal with |- context [try_except_finally ?b ?h ?f s3] =>
    destruct (try_except_finally b h f s3) as [s4 r4] end.
  specialize (Hstop s4).
  destruct ((log (Call Stop) ;; fault (w_stop w) tt)%py s4) as [s' [[]|e']];
    cbn [fst] in *; lia.
Qed.
End Releases.

(** ** The success path *)




(** ** Failures and the catch-all *)







(** ** Releasing the browser *)

(** C3 is false as it is stated: the launch succeeds, then
    [browser.new_page()], which is before the [try] statement, raises;
    [browser.close()] is never called. *)
Lemma C3_counterexample :
  w_start world_new_page_fails = None /\
  w_launch world_new_page_fails = None /\
  calls (fst (main world_new_page_fails ∅)) = [Start; Launch; NewPage; Stop] /\
  releases (fst (main world_new_page_fails ∅)) = 0.
Proof. repeat split. Qed.

(** C3, amended: in no run is the browser closed more than once; and in
    every run in which the page has been opened (launch and new_page both
    returned, so that the [try] statement is entered) it is closed exactly
    once, as the last thing before Playwright is stopped, on every exit
    path: success, timeout, navigation error, or any other exception
    raised inside the [try] statement, caught or not. *)
Theorem C3_released_exactly_once (w : World) (fs : gmap string Image) :
  releases (fst (main w fs)) <= 1 /\
  (page_opened w ->
   releases (fst (main w fs)) = 1 /\
   exists pre, calls (fst (main w fs)) = pre ++ [Close; Stop]).
Proof.
  assert (Hmain : fst (main w fs) = fst (verify_docs w (initial fs))).
  { unfold main; destruct (verify_docs w (initial fs)); reflexivity. }
  pose proof (verify_docs_releases w (initial fs)) as Hrel.
  rewrite <- Hmain in Hrel; change (releases (initial fs)) with 0 in Hrel.
  split.
  - rewrite Hrel; destruct (w_start w), (w_launch w), (w_new_page w); cbn; lia.
  - intros (Hs & Hl & Hp); split.
    + rewrite Hrel, Hs, Hl, Hp; reflexivity.
    + clear Hmain Hrel.
      run w;
        match goal with
        | |- exists pre, ?l = _ =>
            exists (removelast (removelast l)); reflexivity
        end.
Qed.

Lemma C3_released_exactly_once_witness :
  page_opened world_cancelled /\
  releases (fst (main world_cancelled ∅)) = 1 /\
  exists pre, calls (fst (main world_cancelled ∅)) = pre ++ [Close; Stop].
Proof.
  assert (H : page_opened world_cancelled) by (repeat split).
  split; [exact H|].
  exact (proj2 (C3_released_exactly_once world_cancelled ∅) H).
Defined.

(** ** Exit status and standard output *)

(** C4 is false as it is stated: when the browser cannot be launched the
    exception is not caught and nothing is printed, and the process ends
    with status 1; likewise when closing the browser raises in the
    [finally] clause; what is raised inside the [try] statement and is
    not an instance of [Exception] leaves the coroutine; and a run in
    which every call returns still ends with status 120 when what it
    printed cannot be written to standard output. *)
Lemma C4_counterexample :
  process_exit world_launch_fails ∅ = Some 1%Z /\
  stdout (fst (main world_launch_fails ∅)) = [] /\
  process_exit world_close_fails ∅ = Some 1%Z /\
  snd (verify_docs world_cancelled (initial ∅)) = Raised cancelled /\
  exc_is_Exception cancelled = false /\
  succeeds world_stdout_broken /\
  w_close world_stdout_broken = None /\
  w_stop world_stdout_broken = None /\
  process_exit world_stdout_broken ∅ = Some 120%Z.
Proof.
  repeat split; exists 250%N; split; reflexivity.
Qed.

(** C4, amended: in every run in which the page has been opened, closing
    the browser and stopping Playwright return normally, nothing raised
    by navigation, heading wait or capture is outside the [Exception]
    hierarchy, and what is printed can be written to standard output, the
    coroutine returns normally and the process ends with exit status 0,
    whether or not a step failed; a failure shows only as the line
    printed. *)
Theorem C4_exit_status (w : World) (fs : gmap string Image) :
  page_opened w -> only_Exceptions w ->
  w_close w = None -> w_stop w = None -> w_stdout_broken w = false ->
  process_exit w fs = Some 0%Z /\
  snd (verify_docs w (initial fs)) = Returned tt /\
  (forall step e, fails_at w step e ->
     stdout (fst (main w fs)) = [error_message e]).
Proof.
  intros Ho Hexc Hcl Hst Hout.
  assert (Hret : snd (verify_docs w (initial fs)) = Returned tt).
  { destruct Ho as (Hs & Hl & Hp), Hexc as (Hg & Hf & Hc).
    clear Hout.
    run w; try absurd_case; reflexivity. }
  split; [|split; [exact Hret|]].
  - unfold process_exit, output_lost.
    destruct (verify_docs w (initial fs)) as [s r]; cbn [snd] in Hret.
    rewrite Hret, Hout; destruct (stdout s); reflexivity.
  - intros step e Hfail.
    apply (run_caught w fs step e Ho Hfail).
    exact (only_Exceptions_fails w step e Ho Hexc Hfail).
Qed.

Lemma C4_exit_status_witness :
  process_exit world_no_heading ∅ = Some 0%Z /\
  snd (verify_docs world_no_heading (initial ∅)) = Returned tt /\
  (forall step e, fails_at world_no_heading step e ->
     stdout (fst (main world_no_heading ∅)) = [error_message e]).
Proof.
  apply (C4_exit_status world_no_heading ∅).
  - repeat split.
  - repeat split.
  - reflexivity.
  - reflexivity.
  - reflexivity.
Defined.




(** ** The filesystem *)




(** C7 is false as it is stated: the script calls
    [page.screenshot(path=...)] without [full_page], which Playwright
    takes as false; what is saved is the capture of the viewport, not
    that of the whole page. *)
Lemma C7_counterexample :
  succeeds world_ok /\
  page_calls (fst (main world_ok ∅))
    = [Goto docs_url None;
       WaitForSelector heading_selector (Some wait_timeout_ms);
       Screenshot (Some screenshot_path) None None] /\
  st_fs (fst (main world_ok ∅)) !! screenshot_path = Some viewport_png /\
  w_capture world_ok true = full_page_png /\
  viewport_png <> full_page_png.
Proof.
  repeat split; try (exists 250%N; split; reflexivity); discriminate.
Qed.

(** C7, amended: when the heading wait has succeeded and the capture
    returns normally, the file at the fixed name holds the screenshot of
    the visible viewport: the script passes the path and nothing else,
    so [full_page] is left at its default, false. *)
Theorem C7_viewport_screenshot (w : World) (fs : gmap string Image) :
  succeeds w ->
  page_calls (fst (main w fs))
    = [Goto docs_url None;
       WaitForSelector heading_selector (Some wait_timeout_ms);
       Screenshot (Some screenshot_path) None None] /\
  full_page_default = false /\
  st_fs (fst (main w fs)) !! screenshot_path = Some (w_capture w false).
Proof.
  intros Hok.
  destruct (run_succeeds w fs Hok) as (d & _ & _ & ->); cbn [st_fs].
  split; [reflexivity | split; [reflexivity|]].
  apply lookup_insert_eq.
Qed.

Lemma C7_viewport_screenshot_witness :
  succeeds world_ok /\
  page_calls (fst (main world_ok ∅))
    = [Goto docs_url None;
       WaitForSelector heading_selector (Some wait_timeout_ms);
       Screenshot (Some screenshot_path) None None] /\
  full_page_default = false /\
  st_fs (fst (main world_ok ∅)) !! screenshot_path
    = Some (w_capture world_ok false).
Proof.
  assert (H : succeeds world_ok).
  { repeat split; exists 250%N; split; reflexivity. }
  split; [exact H | apply (C7_viewport_screenshot world_ok ∅ H)].
Defined.

(** ** Order of the steps and the timeout *)

(** C8: in every run the calls on the page are, in this order and as far
    as the run gets, navigate, wait for the heading, capture; the only
    call that is given a timeout is the heading wait, with 10000 ms; the
    wait never lasts longer than that, and, unless the call fails for a
    reason of its own, it lasts until the heading is visible or until the
    10000 ms are over, whichever comes first; and the capture is reached
    only when the wait has returned because the heading was visible in
    time. *)
Theorem C8_order_and_timeout (w : World) (fs : gmap string Image) :
  page_calls (fst (main w fs)) `prefix_of`
    [Goto docs_url None;
     WaitForSelector heading_selector (Some wait_timeout_ms);
     Screenshot (Some screenshot_path) None None] /\
  wait_timeout_ms = 10000%N /\
  Forall (fun c => timeout_of c <> None ->
                   c = WaitForSelector heading_selector (Some wait_timeout_ms))
         (calls (fst (main w fs))) /\
  (st_waited (fst (main w fs)) <= wait_timeout_ms)%N /\
  (reached_wait (fst (main w fs)) = true -> w_wait_fault w = None ->
   st_waited (fst (main w fs))
     = match w_visible_after w heading_selector with
       | Some d => N.min d wait_timeout_ms
       | None => wait_timeout_ms
       end) /\
  (reached_screenshot (fst (main w fs)) = true ->
   reached_wait (fst (main w fs)) = true /\
   heading_within w wait_timeout_ms /\
   w_visible_after w heading_selector = Some (st_waited (fst (main w fs)))).
Proof.
  split; [|split; [reflexivity|split; [|split; [|split]]]].
  - run w; eexists; reflexivity.
  - run w; cbn; repeat constructor; cbn; congruence.
  - run w;
      repeat match goal with
      | H : (_ <? _)%N = true |- _ => apply N.ltb_lt in H
      | H : (_ <? _)%N = false |- _ => apply N.ltb_ge in H
      end; lia.
  - run w; cbn; intros; try congruence;
      repeat match goal with
      | H : (_ <? _)%N = true |- _ => apply N.ltb_lt in H
      | H : (_ <? _)%N = false |- _ => apply N.ltb_ge in H
      end; lia.
  - run w; cbn; intros; try congruence.
    all: split; [reflexivity|]; split; [|reflexivity].
    all: split; [reflexivity|]; eexists; split; [reflexivity|].
    all: apply N.ltb_lt; assumption.
Qed.

Lemma C8_order_and_timeout_witness :
  reached_wait (fst (main world_slow_heading ∅)) = true /\
  w_wait_fault world_slow_heading = None /\
  st_waited (fst (main world_slow_heading ∅))
    = match w_visible_after world_slow_heading heading_selector with
      | Some d => N.min d wait_timeout_ms
      | None => wait_timeout_ms
      end /\
  reached_screenshot (fst (main world_ok ∅)) = true /\
  reached_wait (fst (main world_ok ∅)) = true /\
  heading_within world_ok wait_timeout_ms /\
  w_visible_after world_ok heading_selector
    = Some (st_waited (fst (main world_ok ∅))).
Proof.
  split; [reflexivity|]; split; [reflexivity|]; split.
  - exact (proj1 (proj2 (proj2 (proj2 (proj2
             (C8_order_and_timeout world_slow_heading ∅)))))
           eq_refl eq_refl).
  - split; [reflexivity|].
    exact (proj2 (proj2 (proj2 (proj2 (proj2
             (C8_order_and_timeout world_ok ∅)))))
           eq_refl).
Defined.

(** ** Running the program again *)

Lemma last_default_irrelevant {A} (l : list A) (a d d' : A) :
  List.last (a :: l) d = List.last (a :: l) d'.
Proof.
  revert a; induction l as [|b l IH]; intros a; [reflexivity | exact (IH b)].
Qed.

Lemma last_cons {A} (l : list A) (a d : A) :
  List.last (a :: l) d = List.last l a.
Proof.
  destruct l as [|b l]; [reflexivity|].
  exact (last_default_irrelevant l b d a).
Qed.

(** C9: successive successful runs all write the one fixed path, each
    replacing what the run before left there: after any number of them
    the files are the initial ones with that one path bound to the last
    capture, and the set of paths is the same as after the first run. *)
Theorem C9_repeated_runs (w : World) (ws : list World)
    (fs : gmap string Image) :
  succeeds w -> Forall succeeds ws ->
  runs (w :: ws) fs
    = <[screenshot_path := w_capture (List.last ws w) full_page_default]> fs /\
  dom (runs (w :: ws) fs) = dom (runs [w] fs) /\
  dom (runs [w] fs) = {[screenshot_path]} ∪ dom fs.
Proof.
  intros Hw Hws.
  assert (Hone : forall w' fs', succeeds w' ->
            st_fs (fst (main w' fs'))
              = <[screenshot_path := w_capture w' full_page_default]> fs').
  { intros w' fs' H.
    destruct (run_succeeds w' fs' H) as (d & _ & _ & ->); reflexivity. }
  assert (Hall : runs (w :: ws) fs
            = <[screenshot_path
                  := w_capture (List.last ws w) full_page_default]> fs).
  { revert w fs Hw; induction Hws as [|w' ws Hw' Hws IH]; intros w fs Hw.
    - cbn [runs List.last]; auto.
    - change (runs (w :: w' :: ws) fs)
        with (runs (w' :: ws) (st_fs (fst (main w fs)))).
      rewrite (IH w' _ Hw'), (Hone w fs Hw), insert_insert_eq.
      rewrite (last_cons ws w' w); reflexivity. }
  split; [exact Hall|].
  rewrite Hall; cbn [runs]; rewrite (Hone w fs Hw), !dom_insert_L.
  split; reflexivity.
Qed.

Lemma C9_repeated_runs_witness :
  succeeds world_ok /\ Forall succeeds [world_ok; world_ok] /\
  runs [world_ok; world_ok; world_ok] ∅
    = <[screenshot_path
          := w_capture (List.last [world_ok; world_ok] world_ok)
                       full_page_default]> ∅ /\
  dom (runs [world_ok; world_ok; world_ok] ∅) = dom (runs [world_ok] ∅) /\
  dom (runs [world_ok] ∅) = {[screenshot_path]} ∪ dom (∅ : gmap string Image).
Proof.
  assert (H : succeeds world_ok).
  { repeat split; exists 250%N; split; reflexivity. }
  assert (Hs : Forall succeeds [world_ok; world_ok]).
  { repeat constructor; exists 250%N; split; reflexivity. }
  split; [exact H|]; split; [exact Hs|].
  apply (C9_repeated_runs world_ok [world_ok; world_ok] ∅ H Hs).
Defined.


(** ** Beyond the try block: what the rest of the script guarantees *)

(** X1: [async with] stops Playwright in every run in which it was
    started: exactly once, as the very last call, on every path, whether
    or not an exception is on its way out. *)
Theorem X1_playwright_stopped_last (w : World) (fs : gmap string Image) :
  w_start w = None ->
  exists pre,
    calls (fst (main w fs)) = pre ++ [Stop] /\ ~ In Stop pre.
Proof.
  intros Hs.
  run w;
    match goal with
    | |- exists pre, ?l = _ /\ _ => exists (removelast l)
    end;
    (split; [reflexivity | cbn; intuition discriminate]).
Qed.

Lemma X1_playwright_stopped_last_witness :
  exists pre,
    calls (fst (main world_launch_fails ∅)) = pre ++ [Stop] /\ ~ In Stop pre.
Proof.
  apply (X1_playwright_stopped_last world_launch_fails ∅).
  reflexivity.
Defined.


(** X3: a failure before the [try] statement (starting Playwright,
    launching the browser, opening the page), whatever is raised: nothing
    is printed, no call is made on the page, [browser.close()] is not
    called, the files are as they were, and the exception ends the
    process with a status that is not 0. *)
Theorem X3_failure_before_try (w : World) (fs : gmap string Image)
    (step : Step) (e : PyExc) :
  fails_at w step e ->
  step = Acquire \/ step = OpenPage ->
  stdout (fst (main w fs)) = [] /\
  page_calls (fst (main w fs)) = [] /\
  releases (fst (main w fs)) = 0 /\
  st_fs (fst (main w fs)) = fs /\
  snd (main w fs) = 1%Z.
Proof.
  intros Hfail Hstep.
  inversion Hfail; subst; destruct Hstep; try discriminate.
  all: run w; repeat split.
Qed.

Lemma X3_failure_before_try_witness :
  stdout (fst (main world_new_page_fails ∅)) = [] /\
  page_calls (fst (main world_new_page_fails ∅)) = [] /\
  releases (fst (main world_new_page_fails ∅)) = 0 /\
  st_fs (fst (main world_new_page_fails ∅)) = ∅ /\
  snd (main world_new_page_fails ∅) = 1%Z.
Proof.
  apply (X3_failure_before_try world_new_page_fails ∅ OpenPage no_page).
  - apply open_fails; reflexivity.
  - right; reflexivity.
Defined.

(** X4: what is raised inside the [try] statement and is not an instance
    of [Exception] (a cancellation, an interrupt) is not caught: nothing
    is printed, the [finally] clause still closes the browser, once, no
    file is touched unless the capture had begun to save, and the
    coroutine does not return normally: the exception leaves it, unless
    one raised while closing or stopping takes its place. *)
Theorem X4_not_an_Exception_escapes (w : World) (fs : gmap string Image)
    (step : Step) (e : PyExc) :
  page_opened w -> fails_at w step e -> exc_is_Exception e = false ->
  stdout (fst (main w fs)) = [] /\
  releases (fst (main w fs)) = 1 /\
  (before_saving w step -> st_fs (fst (main w fs)) = fs) /\
  (w_close w = None -> w_stop w = None ->
   snd (verify_docs w (initial fs)) = Raised e) /\
  (forall r, snd (verify_docs w (initial fs)) <> Returned r).
Proof.
  intros (Hs & Hl & Hp) Hfail Hexc.
  destruct e as [b detail]; cbn in Hexc; subst b.
  inversion Hfail; subst; try congruence;
    repeat match goal with
    | H : page_opened _ |- _ => clear H
    | H : heading_within _ _ |- _ => destruct H as (? & ? & ? & Hlt)
    end;
    try apply N.ltb_lt in Hlt.
  all: run w; try absurd_case.
  all: repeat split; intros; try reflexivity; try congruence.
  all: match goal with
       | H : ?a = ?a -> _ |- _ => specialize (H eq_refl); congruence
       end.
Qed.

Lemma X4_not_an_Exception_escapes_witness :
  stdout (fst (main world_cancelled ∅)) = [] /\
  releases (fst (main world_cancelled ∅)) = 1 /\
  (before_saving world_cancelled Navigate ->
   st_fs (fst (main world_cancelled ∅)) = ∅) /\
  (w_close world_cancelled = None -> w_stop world_cancelled = None ->
   snd (verify_docs world_cancelled (initial ∅)) = Raised cancelled) /\
  (forall r, snd (verify_docs world_cancelled (initial ∅)) <> Returned r).
Proof.
  apply (X4_not_an_Exception_escapes world_cancelled ∅ Navigate cancelled).
  - repeat split.
  - apply goto_fails; [repeat split | reflexivity].
  - reflexivity.
Defined.

(** X5: an exception raised by [browser.close()] in the [finally] clause
    is not handled by the [except] clause beside it: the process ends
    with a status that is not 0 even after a run that went through, with
    the file written and the success message printed; Playwright is
    still stopped afterwards. *)
Theorem X5_close_failure_escapes (w : World) (fs : gmap string Image)
    (e : PyExc) :
  page_opened w -> w_close w = Some e ->
  snd (main w fs) = 1%Z /\
  releases (fst (main w fs)) = 1 /\
  (exists pre, calls (fst (main w fs)) = pre ++ [Close; Stop]) /\
  (succeeds w ->
   stdout (fst (main w fs)) = [success_message] /\
   st_fs (fst (main w fs)) !! screenshot_path
     = Some (w_capture w full_page_default)).
Proof.
  intros Ho Hcl; split; [|split; [|split]].
  - destruct Ho as (Hs & Hl & Hp).
    run w; reflexivity.
  - destruct Ho as (Hs & Hl & Hp).
    run w; reflexivity.
  - destruct Ho as (Hs & Hl & Hp).
    run w;
      match goal with
      | |- exists pre, ?l = _ => exists (removelast (removelast l)); reflexivity
      end.
  - intros Hok.
    destruct (run_succeeds w fs Hok) as (d & _ & _ & ->); cbn [st_fs].
    split; [reflexivity | apply lookup_insert_eq].
Qed.

Lemma X5_close_failure_escapes_witness :
  succeeds world_close_fails /\
  snd (main world_close_fails ∅) = 1%Z /\
  stdout (fst (main world_close_fails ∅)) = [success_message] /\
  st_fs (fst (main world_close_fails ∅)) !! screenshot_path
    = Some (w_capture world_close_fails full_page_default).
Proof.
  assert (Hok : succeeds world_close_fails).
  { repeat split; exists 250%N; split; reflexivity. }
  assert (Ho : page_opened world_close_fails) by (repeat split).
  pose proof (X5_close_failure_escapes world_close_fails ∅ disconnected
                Ho eq_refl) as (Hexit & _ & _ & Hrun).
  split; [exact Hok|]; split; [exact Hexit | exact (Hrun Hok)].
Defined.

(** ** The outcome of the coroutine and the message, characterised *)

Section MoreHelpers.
Implicit Types (w : World) (fs : gmap string Image) (e : PyExc).





Lemma run_succeeds_fs w fs :
  succeeds w ->
  st_fs (fst (main w fs))
    = <[screenshot_path := w_capture w full_page_default]> fs.
Proof.
  intros H; destruct (run_succeeds w fs H) as (d & _ & _ & ->); reflexivity.
Qed.

Lemma runs_app (ws1 ws2 : list World) fs :
  runs (ws1 ++ ws2) fs = runs ws2 (runs ws1 fs).
Proof.
  revert fs; induction ws1 as [|w ws1 IH]; intros fs; [reflexivity|].
  cbn [app runs]; apply IH.
Qed.
End MoreHelpers.





(** ** Sequences of runs *)

(** X9: a run that fails before the capture has opened the file leaves
    no trace in the files, so it can be dropped from any sequence of
    runs; in particular the screenshot of an earlier successful run is
    still there after it. *)
Theorem X9_failing_run_drops_out (w : World) (ws1 ws2 : list World)
    (fs : gmap string Image) (step : Step) (e : PyExc) :
  fails_at w step e -> before_saving w step ->
  runs (ws1 ++ w :: ws2) fs = runs (ws1 ++ ws2) fs.
Proof.
  intros Hfail Hb.
  rewrite !runs_app; cbn [runs].
  rewrite (run_fails_fs w _ step e Hfail Hb); reflexivity.
Qed.

Lemma X9_failing_run_drops_out_witness :
  runs ([world_ok] ++ world_no_heading :: []) ∅ = runs ([world_ok] ++ []) ∅.
Proof.
  apply (X9_failing_run_drops_out world_no_heading [world_ok] [] ∅ WaitHeading
           (TimeoutError (w_timeout_detail world_no_heading))).
  - apply wait_times_out; try reflexivity; [repeat split|].
    intros d H; discriminate H.
  - intros H; discriminate H.
Defined.

(** X10: of two successful runs in a row only the later one shows in the
    files, wherever in a sequence of runs they stand. *)
Theorem X10_later_success_overwrites (w w' : World) (ws1 ws2 : list World)
    (fs : gmap string Image) :
  succeeds w -> succeeds w' ->
  runs (ws1 ++ w :: w' :: ws2) fs = runs (ws1 ++ w' :: ws2) fs.
Proof.
  intros Hw Hw'.
  rewrite !runs_app; cbn [runs].
  rewrite (run_succeeds_fs w _ Hw), !(run_succeeds_fs w' _ Hw').
  rewrite insert_insert_eq; reflexivity.
Qed.

Lemma X10_later_success_overwrites_witness :
  succeeds world_ok /\ succeeds world_close_fails /\
  runs ([] ++ world_ok :: world_close_fails :: []) ∅
    = runs ([] ++ world_close_fails :: []) ∅.
Proof.
  assert (H : succeeds world_ok).
  { repeat split; exists 250%N; split; reflexivity. }
  assert (H' : succeeds world_close_fails).
  { repeat split; exists 250%N; split; reflexivity. }
  split; [exact H|]; split; [exact H'|].
  apply (X10_later_success_overwrites world_ok world_close_fails [] [] ∅ H H').
Defined.

(** ** The message and the release *)

(** X11: whatever message a run prints, printing it is the last thing
    done inside the [try] statement: it is followed at once by closing
    the browser and stopping Playwright, and by nothing else. *)
Theorem X11_message_then_release (w : World) (fs : gmap string Image)
    (msg : string) :
  In msg (stdout (fst (main w fs))) ->
  exists pre,
    st_log (fst (main w fs)) = pre ++ [Printed msg; Call Close; Call Stop].
Proof.
  run w; unfold stdout; cbn [st_log omap list_omap In];
    intros Hin; try contradiction;
    destruct Hin as [<- | []];
    match goal with
    | |- exists pre, ?l = _ =>
        exists (removelast (removelast (removelast l))); reflexivity
    end.
Qed.

Lemma X11_message_then_release_witness :
  exists pre,
    st_log (fst (main world_unreachable ∅))
      = pre ++ [Printed (error_message unreachable); Call Close; Call Stop].
Proof.
  apply (X11_message_then_release world_unreachable ∅
           (error_message unreachable)).
  left; reflexivity.
Defined.

(** X12: the first failure ends the work on the page: the calls made on
    the page in a failing run are those up to and including the step that
    failed, and none after it. *)
Theorem X12_nothing_after_failure (w : World) (fs : gmap string Image)
    (step : Step) (e : PyExc) :
  fails_at w step e ->
  page_calls (fst (main w fs))
    = firstn (match step with
              | Acquire | OpenPage => 0
              | Navigate => 1
              | WaitHeading => 2
              | Capture => 3
              end)
        [Goto docs_url None;
         WaitForSelector heading_selector (Some wait_timeout_ms);
         Screenshot (Some screenshot_path) None None].
Proof.
  intros Hfail.
  inversion Hfail; subst;
    repeat match goal with
    | H : page_opened _ |- _ => destruct H as (? & ? & ?)
    | H : heading_within _ _ |- _ => destruct H as (? & ? & ? & Hlt)
    end;
    try apply N.ltb_lt in Hlt.
  all: run w; try absurd_case; reflexivity.
Qed.

Lemma X12_nothing_after_failure_witness :
  page_calls (fst (main world_unreachable ∅))
    = firstn 1
        [Goto docs_url None;
         WaitForSelector heading_selector (Some wait_timeout_ms);
         Screenshot (Some screenshot_path) None None].
Proof.
  apply (X12_nothing_after_failure world_unreachable ∅ Navigate unreachable).
  apply goto_fails; [repeat split | reflexivity].
Defined.
